(** * AI document analyst: the intake and analysis handlers of [index.tsx]

    A shallow embedding of the React component [App]: its state cells
    ([files], [isAnalyzing], [result], [error], [isCopied]), the helpers
    [fileToBase64], [fileToText], [extractDocxText], and the handlers
    [handleFileChange], [removeFile], [clearAll], [analyzeFiles] and
    [copyToClipboard].

    Conventions.
    - A JavaScript string is a [string] holding its UTF-8 bytes.  The only
      string tests of the source are equality and [endsWith] with an ASCII
      suffix, which agree on UTF-8 bytes and on UTF-16 code units.
    - A JavaScript value that is a string or [undefined] is an
      [option string]; its truthiness is [truthy].
    - A promise that settles is an [Outcome]: [Resolved v] or [Rejected e].
    - The browser and the two libraries ([FileReader], [File.arrayBuffer],
      [mammoth], the completion service, [Math.random]) are parameters.
    - A handler runs from the state it was rendered with to the state after
      its last [set...] call; no other event is interleaved with it. *)

From Stdlib Require Import String Ascii.
From stdpp Require Import base option list strings.

(** ** JavaScript values *)

(** [if (v)] for a value that is a string or [undefined]. *)
Definition truthy (v : option string) : bool :=
  match v with
  | Some s => negb (String.eqb s "")
  | None => false
  end.

(** [`${v}`] for a value that is a string or [undefined]. *)
Definition interpolate (v : option string) : string :=
  match v with
  | Some s => s
  | None => "undefined"
  end.

(** [s.endsWith(suffix)] *)
Definition endsWith (s suffix : string) : bool :=
  (String.length suffix <=? String.length s)%nat &&
  String.eqb
    (substring (String.length s - String.length suffix)
               (String.length suffix) s)
    suffix.

(** [s.split(sep)] for a one-character separator. *)
Fixpoint split (sep : ascii) (s : string) : list string :=
  match s with
  | EmptyString => [EmptyString]
  | String c rest =>
      if Ascii.eqb c sep then EmptyString :: split sep rest
      else match split sep rest with
           | piece :: pieces => String c piece :: pieces
           | [] => [String c EmptyString]
           end
  end.

(** A thrown value, as far as the handlers look at it: [err.message]. *)
Record Thrown := { message : option string }.

Inductive Outcome (A : Type) : Type :=
  | Resolved (value : A)
  | Rejected (reason : Thrown).
Arguments Resolved {A} value.
Arguments Rejected {A} reason.

#[global] Instance Outcome_ret : MRet Outcome := fun A v => Resolved v.
#[global] Instance Outcome_bind : MBind Outcome := fun A B k m =>
  match m with
  | Resolved v => k v
  | Rejected e => Rejected e
  end.

(** [try { m } catch (err) { handler err }] *)
Definition try_catch {A} (m : Outcome A) (handler : Thrown → Outcome A)
  : Outcome A :=
  match m with
  | Resolved v => Resolved v
  | Rejected e => handler e
  end.

(** ** Data model *)

(** The browser's [File]: [name], [type] and the bytes it holds. *)
Record File := { name : string; type : string; bytes : string }.

(** [interface AppFile].  TypeScript's types are erased: [base64] holds
    whatever [fileToBase64] resolved with, which is [undefined] when the data
    URL has no comma. *)
Record AppFile := {
  file : File;
  base64 : option string;
  extractedText : option string;
  id : string
}.

(** The [useState] cells of [App]. *)
Record State := {
  files : list AppFile;
  isAnalyzing : bool;
  result : string;
  error : option string;
  isCopied : bool
}.

Definition initialState : State :=
  {| files := []; isAnalyzing := false; result := ""; error := None;
     isCopied := false |}.

Definition setFiles (update : list AppFile → list AppFile) (s : State) : State :=
  {| files := update (files s); isAnalyzing := isAnalyzing s;
     result := result s; error := error s; isCopied := isCopied s |}.

Definition setIsAnalyzing (v : bool) (s : State) : State :=
  {| files := files s; isAnalyzing := v;
     result := result s; error := error s; isCopied := isCopied s |}.

Definition setResult (update : string → string) (s : State) : State :=
  {| files := files s; isAnalyzing := isAnalyzing s;
     result := update (result s); error := error s; isCopied := isCopied s |}.

Definition setError (v : option string) (s : State) : State :=
  {| files := files s; isAnalyzing := isAnalyzing s;
     result := result s; error := v; isCopied := isCopied s |}.

Definition setIsCopied (v : bool) (s : State) : State :=
  {| files := files s; isAnalyzing := isAnalyzing s;
     result := result s; error := error s; isCopied := v |}.

(** ** [removeFile], [clearAll] and [copyToClipboard] *)

Definition removeFile (i : string) (s : State) : State :=
  setFiles (fun prev => filter (fun f => id f ≠ i) prev) s.

Definition clearAll (s : State) : State :=
  setError None (setResult (fun _ => "") (setFiles (fun _ => []) s)).

(** The state write of [copyToClipboard]; the timer it starts makes the
    write [copiedExpired] two seconds later. *)
Definition copyToClipboard (s : State) : State := setIsCopied true s.

Definition copiedExpired (s : State) : State := setIsCopied false s.

(** ** The environment of the intake *)

(** What the browser and [mammoth] answer for a file.
    - [arrayBuffer f]: [f.arrayBuffer()];
    - [extractRawText buf]: [mammoth.extractRawText({arrayBuffer: buf})],
      projected to [.value];
    - [readAsText f], [readAsDataURL f]: a [FileReader] started on [f], whose
      [onload] resolves with [reader.result] and whose [onerror] rejects with
      the event it is given. *)
Record Env := {
  arrayBuffer : File → Outcome string;
  extractRawText : string → Outcome string;
  readAsText : File → Outcome string;
  readAsDataURL : File → Outcome string
}.

Definition wordMime : string :=
  "application/vnd.openxmlformats-officedocument.wordprocessingml.document".

Definition docxError : Thrown :=
  {| message := Some "Не удалось прочитать содержимое Word документа." |}.

Definition capacityMessage : string :=
  "Можно загрузить не более 10 файлов одновременно.".

Section Intake.
Context (env : Env).

(** [reader.result.split(',')[1]] *)
Definition fileToBase64 (f : File) : Outcome (option string) :=
  url ← readAsDataURL env f;
  mret (split ","%char url !! 1%nat).

Definition fileToText (f : File) : Outcome string :=
  readAsText env f.

Definition extractDocxText (f : File) : Outcome string :=
  try_catch
    (buf ← arrayBuffer env f; extractRawText env buf)
    (fun _ => Rejected docxError).

(** The two tests of [handleFileChange], in the order it makes them. *)
Definition isWord (f : File) : bool :=
  endsWith (name f) ".docx" || String.eqb (type f) wordMime.

Definition isPlainText (f : File) : bool :=
  String.eqb (type f) "text/plain" || endsWith (name f) ".txt".

(** The body of the [try] block up to [newFiles.push]: the pair
    [(base64, extractedText)], which start as [''] and [undefined]. *)
Definition readContent (f : File) : Outcome (option string * option string) :=
  if isWord f then
    text ← extractDocxText f; mret (Some "", Some text)
  else if isPlainText f then
    text ← fileToText f; mret (Some "", Some text)
  else
    data ← fileToBase64 f; mret (data, None).

(** The message of the [catch] block. *)
Definition fileErrorMessage (f : File) (err : Thrown) : string :=
  "Ошибка при обработке файла " +:+ name f +:+ ": " +:+
  interpolate (message err).

(** The [for ... of] loop.  [random k] is the identifier that the [k]-th
    call of [Math.random().toString(36).substring(7)] in this run yields;
    the call is made once per admitted candidate.  The loop returns
    [newFiles] and the state after the [setError] calls it made. *)
Fixpoint intakeLoop (random : nat → string) (selectedFiles : list File)
    (newFiles : list AppFile) (s : State) : list AppFile * State :=
  match selectedFiles with
  | [] => (newFiles, s)
  | f :: rest =>
      match readContent f with
      | Resolved (data, text) =>
          intakeLoop random rest
            (newFiles ++ [{| file := f; base64 := data;
                             extractedText := text;
                             id := random (length newFiles) |}])
            s
      | Rejected err =>
          intakeLoop random rest newFiles
            (setError (Some (fileErrorMessage f err)) s)
      end
  end.

Definition handleFileChange (random : nat → string)
    (selectedFiles : list File) (s : State) : State :=
  if (10 <? length (files s) + length selectedFiles)%nat then
    setError (Some capacityMessage) s
  else
    let '(newFiles, s') := intakeLoop random selectedFiles [] s in
    setError None (setFiles (fun prev => prev ++ newFiles) s').

End Intake.

(** ** [analyzeFiles] *)

(** An element of [promptParts]: [{text}] or [{inlineData: {mimeType, data}}]. *)
Inductive Part :=
  | TextPart (text : string)
  | InlineDataPart (mimeType data : string).

Definition instruction : string :=
  "Проанализируй все предоставленные выше файлы (тексты, документы и изображения) и сделай краткие, но содержательные выводы по каждому из них. Выдели ключевые тезисы. В конце сделай общий обобщающий вывод. Отвечай на русском языке.".

Definition fallbackMessage : string :=
  "Произошла ошибка при анализе файлов. Попробуйте снова.".

(** [a || b] on strings *)
Definition or_else (a b : string) : string :=
  if String.eqb a "" then b else a.

(** One turn of [files.forEach]: what it does to [promptParts]. *)
Definition pushFile (promptParts : list Part) (f : AppFile) : list Part :=
  if truthy (extractedText f) then
    promptParts ++
      [TextPart ("Содержимое файла " +:+ name (file f) +:+ ":" +:+
                 String "010"%char (interpolate (extractedText f)))]
  else if truthy (base64 f) then
    promptParts ++
      [InlineDataPart (or_else (type (file f)) "application/octet-stream")
                      (interpolate (base64 f))]
  else promptParts.

(** [promptParts] as it is passed to [generateContentStream]. *)
Definition promptParts (fs : list AppFile) : list Part :=
  foldl pushFile [] fs ++ [TextPart instruction].

(** One element of the response stream: [chunk.text]. *)
Record Chunk := { chunkText : option string }.

(** A response stream that ends: the chunks it yields, then completion or a
    throw. *)
Inductive StreamEnd :=
  | Completed
  | Threw (err : Thrown).

Record ResponseStream := { chunks : list Chunk; ending : StreamEnd }.

(** [new GoogleGenAI(...)] followed by [ai.models.generateContentStream]:
    rejected when either throws. *)
Definition Service := list Part → Outcome ResponseStream.

(** One turn of [for await (const chunk of responseStream)]. *)
Definition appendChunk (s : State) (c : Chunk) : State :=
  if truthy (chunkText c) then
    setResult (fun prev => prev +:+ interpolate (chunkText c)) s
  else s.

(** The [catch] block. *)
Definition analysisFailed (err : Thrown) (s : State) : State :=
  setError
    (Some (if truthy (message err) then interpolate (message err)
           else fallbackMessage))
    s.

(** The three [set...] calls before the [try]. *)
Definition analysisStarted (s : State) : State :=
  setError None (setResult (fun _ => "") (setIsAnalyzing true s)).

Definition analyzeFiles (service : Service) (s : State) : State :=
  if (length (files s) =? 0)%nat then s
  else
    let s0 := analysisStarted s in
    let s1 :=
      match service (promptParts (files s)) with
      | Rejected err => analysisFailed err s0
      | Resolved responseStream =>
          let s' := foldl appendChunk s0 (chunks responseStream) in
          match ending responseStream with
          | Completed => s'
          | Threw err => analysisFailed err s'
          end
      end in
    setIsAnalyzing false s1.

(** ** Reachable states *)

(** The states [App] goes through: the initial one and those its handlers
    and its timer lead to, whatever the completion service answers. *)
Inductive Reachable (env : Env) : State → Prop :=
  | reach_initial : Reachable env initialState
  | reach_handleFileChange random selectedFiles s :
      Reachable env s →
      Reachable env (handleFileChange env random selectedFiles s)
  | reach_removeFile i s :
      Reachable env s → Reachable env (removeFile i s)
  | reach_clearAll s :
      Reachable env s → Reachable env (clearAll s)
  | reach_analyzeFiles service s :
      Reachable env s → Reachable env (analyzeFiles service s)
  | reach_copyToClipboard s :
      Reachable env s → Reachable env (copyToClipboard s)
  | reach_copiedExpired s :
      Reachable env s → Reachable env (copiedExpired s).

(** ** A sample environment

    A browser in which every read succeeds: [readAsText] yields the bytes
    (taken to be valid UTF-8), [readAsDataURL] yields
    [data:<type>;base64,<payload>], and [mammoth] finds no buffer to be a
    Word document. *)
Module Browser.

Definition alphabet : string :=
  "ABCDEFGHIJKLMNOPQRSTUVWXYZabcdefghijklmnopqrstuvwxyz0123456789+/".

Definition digit (n : N) : ascii :=
  default "="%char (String.get (N.to_nat (n `mod` 64)) alphabet).

(** Base64 with padding, three bytes to four digits. *)
Fixpoint encode (s : string) : string :=
  match s with
  | EmptyString => EmptyString
  | String a EmptyString =>
      let n := (N_of_ascii a * 65536)%N in
      String (digit (n / 262144)) (String (digit (n / 4096)) "==")
  | String a (String b EmptyString) =>
      let n := (N_of_ascii a * 65536 + N_of_ascii b * 256)%N in
      String (digit (n / 262144))
        (String (digit (n / 4096)) (String (digit (n / 64)) "="))
  | String a (String b (String c rest)) =>
      let n := (N_of_ascii a * 65536 + N_of_ascii b * 256
                + N_of_ascii c)%N in
      String (digit (n / 262144))
        (String (digit (n / 4096))
           (String (digit (n / 64)) (String (digit n) (encode rest))))
  end.

Definition notZip : Thrown :=
  {| message :=
       Some "Can't find end of central directory : is this a zip file ?" |}.

Definition env : Env :=
  {| arrayBuffer := fun f => Resolved (bytes f);
     extractRawText := fun _ => Rejected notZip;
     readAsText := fun f => Resolved (bytes f);
     readAsDataURL := fun f =>
       Resolved ("data:" +:+ type f +:+ ";base64," +:+ encode (bytes f)) |}.

(** Identifiers as [Math.random] could yield them. *)
Definition random (k : nat) : string :=
  match k with
  | 0 => "k3x9q"
  | 1 => "p0v7m"
  | 2 => "z8d2c"
  | _ => "a" +:+ String (digit (N.of_nat k)) "1f4t"
  end.

End Browser.

(** ** Notions the properties are stated with *)

(** [extractedText] holds a string. *)
Definition textSet (f : AppFile) : Prop := extractedText f ≠ None.

(** [base64] holds a payload: a string other than the [''] it starts as. *)
Definition payloadSet (f : AppFile) : Prop := truthy (base64 f) = true.

Definition exactlyOnePopulated (f : AppFile) : Prop :=
  (textSet f ∧ ¬ payloadSet f) ∨ (payloadSet f ∧ ¬ textSet f).

(** The two content fields of a tracked file are what [readContent] resolved
    with for its file. *)
Definition ContentRead (env : Env) (f : AppFile) : Prop :=
  readContent env (file f) = Resolved (base64 f, extractedText f).

(** A candidate the intake omits. *)
Definition unreadable (env : Env) (f : File) : Prop :=
  ∃ err, readContent env f = Rejected err.

#[global] Instance unreadable_dec env f : Decision (unreadable env f).
Proof.
  unfold unreadable. destruct (readContent env f) as [content|err].
  - right. intros [err Hrej]. discriminate Hrej.
  - left. by exists err.
Defined.

(** The part a tracked file contributes to the request, if any. *)
Definition filePart (f : AppFile) : option Part :=
  if truthy (extractedText f) then
    Some (TextPart ("Содержимое файла " +:+ name (file f) +:+ ":" +:+
                    String "010"%char (interpolate (extractedText f))))
  else if truthy (base64 f) then
    Some (InlineDataPart (or_else (type (file f)) "application/octet-stream")
                         (interpolate (base64 f)))
  else None.

Definition hasContent (f : AppFile) : Prop := is_Some (filePart f).

(** The text of a fragment; a chunk without text contributes none. *)
Definition fragmentText (c : Chunk) : string := default "" (chunkText c).

(** The fragments of a run, concatenated in arrival order. *)
Definition concatFragments (cs : list Chunk) : string :=
  foldr (fun c rest => fragmentText c +:+ rest) "" cs.

(** ** Sample inputs *)

Module Samples.

Definition notes : File :=
  {| name := "notes.txt"; type := "text/plain"; bytes := "Quarterly plan" |}.

Definition emptyNotes : File :=
  {| name := "empty.txt"; type := "text/plain"; bytes := "" |}.

Definition photo : File :=
  {| name := "photo.png"; type := "image/png"; bytes := "Man" |}.

Definition emptyPhoto : File :=
  {| name := "blank.png"; type := "image/png"; bytes := "" |}.

(** Named as a Word document, but not one. *)
Definition broken : File :=
  {| name := "broken.docx"; type := wordMime; bytes := "not a zip" |}.

(** A Word extension on a file declared as plain text. *)
Definition report : File :=
  {| name := "report.docx"; type := "text/plain"; bytes := "Summary" |}.

(** Fresh identifiers for an upload into [s]. *)
Definition random (s : State) (k : nat) : string :=
  Browser.random (length (files s) + k).

Definition upload (selectedFiles : list File) (s : State) : State :=
  handleFileChange Browser.env (random s) selectedFiles s.

(** Nine tracked files, from three uploads of three. *)
Definition nine : State :=
  upload [notes; photo; notes]
    (upload [photo; notes; photo] (upload [notes; photo; notes] initialState)).

End Samples.

(** Sample runs of the completion service. *)
Module Runs.

Definition fragments : list Chunk :=
  [ {| chunkText := Some "Файл 1: " |}; {| chunkText := None |};
    {| chunkText := Some "вывод." |} ].

Definition completes : Service := fun _ =>
  Resolved {| chunks := fragments; ending := Completed |}.

Definition breaks : Service := fun _ =>
  Resolved {| chunks := fragments;
              ending := Threw {| message := Some "Failed to fetch" |} |}.

Definition ready : State := Samples.upload [Samples.notes] initialState.

End Runs.

(** ** The file list of the view *)

(** The [src] of the thumbnail that the file list renders for a tracked
    file: [f.file.type.startsWith('image/') && f.base64] guards the [img],
    and the icon is drawn otherwise ([None]). *)
Definition thumbnail (f : AppFile) : option string :=
  if String.prefix "image/" (type (file f)) && truthy (base64 f) then
    Some ("data:" +:+ type (file f) +:+ ";base64," +:+ interpolate (base64 f))
  else None.

(** [c] occurs in [s]. *)
Fixpoint contains (c : ascii) (s : string) : bool :=
  match s with
  | EmptyString => false
  | String x rest => Ascii.eqb x c || contains c rest
  end.

(** Further sample inputs. *)
Module Uploads.

(** A picture whose name ends like a text file. *)
Definition scan : File :=
  {| name := "scan.txt"; type := "image/png"; bytes := "Man" |}.

Definition scanned : State := Samples.upload [scan] initialState.

(** A picture, a document that cannot be read, and a text file. *)
Definition mixed : list File :=
  [Samples.photo; Samples.broken; Samples.notes].

End Uploads.

(** * Properties *)

(** ** Strings *)

Example endsWith_docx :
  endsWith "plan.docx" ".docx" = true ∧ endsWith "docx" ".docx" = false ∧
  endsWith "plan.docx.bak" ".docx" = false ∧ endsWith ".txt" ".txt" = true.
Proof. repeat split. Qed.

Example split_data_url :
  split ","%char "data:image/png;base64,TWFu" = ["data:image/png;base64"; "TWFu"] ∧
  split ","%char "data:image/png;base64," = ["data:image/png;base64"; ""] ∧
  split ","%char "data:" = ["data:"].
Proof. repeat split. Qed.

Example encode_padding :
  Browser.encode "Man" = "TWFu" ∧ Browser.encode "Ma" = "TWE=" ∧
  Browser.encode "M" = "TQ==" ∧ Browser.encode "" = "".
Proof. repeat split. Qed.

Lemma append_cons (c : ascii) (s t : string) :
  String c s +:+ t = String c (s +:+ t).
Proof. reflexivity. Qed.

Lemma append_nil_r (s : string) : s +:+ "" = s.
Proof.
  induction s as [|c s IH]; [done|]. by rewrite append_cons, IH.
Qed.

Lemma append_assoc (a b c : string) : (a +:+ b) +:+ c = a +:+ (b +:+ c).
Proof.
  induction a as [|x a IH]; [done|]. by rewrite !append_cons, IH.
Qed.

Lemma truthy_Some (v : option string) :
  truthy v = true ↔ ∃ m, v = Some m ∧ m ≠ "".
Proof.
  destruct v as [m|]; simpl.
  - destruct (String.eqb_spec m "") as [->|Hne]; simpl.
    + split; [done | intros (m & [= <-] & Hm); done].
    + split; [eauto | done].
  - split; [done | intros (m & [=] & _)].
Qed.

(** ** [removeFile] *)

Section RemoveFile.
Implicit Types (i : string) (s : State).

Lemma removeFile_files i s :
  files (removeFile i s) = filter (fun f => id f ≠ i) (files s).
Proof. reflexivity. Qed.

Lemma filter_absent i (fs : list AppFile) :
  i ∉ id <$> fs → filter (fun f => id f ≠ i) fs = fs.
Proof.
  induction fs as [|f fs IH]; [done|].
  rewrite fmap_cons, not_elem_of_cons. intros [Hne Hrest].
  rewrite filter_cons_True by done. by rewrite IH.
Qed.

(** C8. Removing the same identifier twice gives the batch that removing
    it once gives, and removing an identifier that no tracked file carries
    gives back the very same state (there is no error path: [removeFile]
    is a total function and the error cell is part of that state). *)
Theorem removeFile_idempotent i s :
  removeFile i (removeFile i s) = removeFile i s ∧
  (i ∉ id <$> files s → removeFile i s = s).
Proof.
  split.
  - unfold removeFile, setFiles; simpl. f_equal.
    rewrite list_filter_filter. apply list_filter_iff. tauto.
  - intros Habsent. destruct s as [fs an r e c].
    unfold removeFile, setFiles; simpl in *. f_equal.
    by apply filter_absent.
Qed.

(** C10. [removeFile] leaves the result text, the analyzing flag and the
    error as they were; the batch it leaves is a subsequence of the old
    one (same records, same relative order) that holds exactly the
    tracked files whose identifier differs from the removed one. *)
Theorem removeFile_frame i s :
  result (removeFile i s) = result s ∧
  isAnalyzing (removeFile i s) = isAnalyzing s ∧
  error (removeFile i s) = error s ∧
  files (removeFile i s) `sublist_of` files s ∧
  ∀ f, f ∈ files (removeFile i s) ↔ f ∈ files s ∧ id f ≠ i.
Proof.
  split; [done|]. split; [done|]. split; [done|]. split.
  - rewrite removeFile_files. apply sublist_filter.
  - intros f. rewrite removeFile_files, list_elem_of_filter. tauto.
Qed.

End RemoveFile.

(** ** The intake loop *)

Section IntakeFacts.
Context (env : Env).
Implicit Types (random : nat → string) (s : State).

(** The loop writes the error cell only. *)
Lemma intakeLoop_frame random selectedFiles newFiles s :
  files (intakeLoop env random selectedFiles newFiles s).2 = files s ∧
  isAnalyzing (intakeLoop env random selectedFiles newFiles s).2
    = isAnalyzing s ∧
  result (intakeLoop env random selectedFiles newFiles s).2 = result s.
Proof.
  revert newFiles s.
  induction selectedFiles as [|f rest IH]; intros newFiles s; simpl; [done|].
  destruct (readContent env f) as [[data text]|err]; [apply IH|].
  destruct (IH newFiles (setError (Some (fileErrorMessage f err)) s))
    as (-> & -> & ->).
  done.
Qed.

(** Every record the loop pushes holds what [readContent] resolved with. *)
Lemma intakeLoop_ContentRead random selectedFiles newFiles s :
  Forall (ContentRead env) newFiles →
  Forall (ContentRead env) (intakeLoop env random selectedFiles newFiles s).1.
Proof.
  revert newFiles s.
  induction selectedFiles as [|f rest IH]; intros newFiles s Hnew; simpl;
    [done|].
  destruct (readContent env f) as [[data text]|err] eqn:Hread.
  - apply IH. apply Forall_app. split; [done|].
    apply Forall_singleton. exact Hread.
  - by apply IH.
Qed.

(** The loop admits, in submission order, the candidates that can be read:
    one that cannot is left out and those after it are still processed. *)
Lemma intakeLoop_admitted random selectedFiles newFiles s :
  file <$> (intakeLoop env random selectedFiles newFiles s).1
    = (file <$> newFiles) ++ filter (fun f => ¬ unreadable env f) selectedFiles.
Proof.
  revert newFiles s.
  induction selectedFiles as [|f rest IH]; intros newFiles s; simpl.
  - by rewrite app_nil_r.
  - rewrite filter_cons.
    destruct (readContent env f) as [[data text]|err] eqn:Hread.
    + rewrite IH, fmap_app, <- app_assoc.
      rewrite decide_True; [done|]. intros [err Hrej]. congruence.
    + rewrite IH. rewrite decide_False; [done|]. intros Hgood.
      apply Hgood. by exists err.
Qed.

(** Once a [catch] has set the error, the rest of the loop keeps one set. *)
Lemma intakeLoop_error random selectedFiles newFiles s :
  is_Some (error s) ∨ Exists (unreadable env) selectedFiles →
  is_Some (error (intakeLoop env random selectedFiles newFiles s).2).
Proof.
  revert newFiles s.
  induction selectedFiles as [|f rest IH]; intros newFiles s Hset; simpl.
  - destruct Hset as [Hset|Hbad]; [done | by apply Exists_nil in Hbad].
  - destruct (readContent env f) as [[data text]|err] eqn:Hread.
    + apply IH. destruct Hset as [Hset|Hbad]; [by left|].
      apply Exists_cons in Hbad as [[err Hrej]|Hbad]; [congruence|by right].
    + apply IH. left. simpl. eauto.
Qed.

Lemma handleFileChange_within random selectedFiles s :
  length (files s) + length selectedFiles ≤ 10 →
  handleFileChange env random selectedFiles s =
    setError None
      (setFiles
         (fun prev => prev ++ (intakeLoop env random selectedFiles [] s).1)
         (intakeLoop env random selectedFiles [] s).2).
Proof.
  intros Hcap. unfold handleFileChange.
  destruct (Nat.ltb_spec 10 (length (files s) + length selectedFiles));
    [lia|].
  by destruct (intakeLoop env random selectedFiles [] s).
Qed.

(** C1. A call that would take the batch past ten tracked files admits no
    candidate: the batch after the call is the batch before it, and the
    error is the capacity message. *)
Theorem handleFileChange_over_capacity random selectedFiles s :
  10 < length (files s) + length selectedFiles →
  files (handleFileChange env random selectedFiles s) = files s ∧
  error (handleFileChange env random selectedFiles s)
    = Some capacityMessage.
Proof.
  intros Hcap. unfold handleFileChange.
  destruct (Nat.ltb_spec 10 (length (files s) + length selectedFiles));
    [done | lia].
Qed.

(** C9. A call within capacity ends with the error cleared, also when a
    candidate could not be read and the loop had set an error message. *)
Theorem handleFileChange_clears_error random selectedFiles s :
  length (files s) + length selectedFiles ≤ 10 →
  error (handleFileChange env random selectedFiles s) = None ∧
  (Exists (unreadable env) selectedFiles →
   is_Some (error (intakeLoop env random selectedFiles [] s).2)).
Proof.
  intros Hcap. split.
  - by rewrite handleFileChange_within.
  - intros Hbad. apply intakeLoop_error. by right.
Qed.

(** One candidate offered within capacity, in terms of what the browser
    and [mammoth] answer: it is admitted with the content of the first rule
    that applies, and left out when the read of that rule fails. *)
Lemma handleFileChange_single random f s :
  length (files s) + 1 ≤ 10 →
  files (handleFileChange env random [f] s) = files s ++
    if endsWith (name f) ".docx" || String.eqb (type f) wordMime then
      match arrayBuffer env f with
      | Resolved buf =>
          match extractRawText env buf with
          | Resolved text =>
              [{| file := f; base64 := Some ""; extractedText := Some text;
                  id := random 0 |}]
          | Rejected _ => []
          end
      | Rejected _ => []
      end
    else if String.eqb (type f) "text/plain" || endsWith (name f) ".txt" then
      match readAsText env f with
      | Resolved text =>
          [{| file := f; base64 := Some ""; extractedText := Some text;
              id := random 0 |}]
      | Rejected _ => []
      end
    else
      match readAsDataURL env f with
      | Resolved url =>
          [{| file := f; base64 := split ","%char url !! 1%nat;
              extractedText := None; id := random 0 |}]
      | Rejected _ => []
      end.
Proof.
  intros Hcap. rewrite handleFileChange_within by (simpl; lia).
  simpl. unfold readContent, isWord, isPlainText.
  unfold extractDocxText, fileToText, fileToBase64.
  destruct (endsWith (name f) ".docx" || String.eqb (type f) wordMime).
  - destruct (arrayBuffer env f) as [buf|err]; simpl; [|done].
    destruct (extractRawText env buf); done.
  - destruct (String.eqb (type f) "text/plain" || endsWith (name f) ".txt").
    + destruct (readAsText env f); done.
    + destruct (readAsDataURL env f); done.
Qed.

End IntakeFacts.

(** ** The content fields of tracked files *)

Lemma appendChunks_frame (cs : list Chunk) (s : State) :
  files (foldl appendChunk s cs) = files s ∧
  isAnalyzing (foldl appendChunk s cs) = isAnalyzing s ∧
  error (foldl appendChunk s cs) = error s ∧
  result (foldl appendChunk s cs) = result s +:+ concatFragments cs.
Proof.
  revert s. induction cs as [|c cs IH]; intros s; simpl.
  - by rewrite append_nil_r.
  - destruct (IH (appendChunk s c)) as (-> & -> & -> & ->).
    unfold appendChunk, fragmentText.
    destruct (chunkText c) as [text|]; simpl; [|done].
    destruct (String.eqb_spec text "") as [->|Hne]; simpl; [done|].
    by rewrite append_assoc.
Qed.

Lemma analyzeFiles_files (service : Service) (s : State) :
  files (analyzeFiles service s) = files s.
Proof.
  unfold analyzeFiles. destruct (length (files s) =? 0)%nat; [done|]. simpl.
  destruct (service _) as [[cs e]|err]; simpl; [|done].
  destruct e; simpl; by rewrite (proj1 (appendChunks_frame cs _)).
Qed.

Lemma Reachable_ContentRead (env : Env) (s : State) :
  Reachable env s → Forall (ContentRead env) (files s).
Proof.
  induction 1 as [|random selectedFiles s _ IH|i s _ IH|s _ _|service s _ IH
                  |s _ IH|s _ IH].
  - constructor.
  - unfold handleFileChange.
    destruct (10 <? length (files s) + length selectedFiles)%nat; [done|].
    pose proof (intakeLoop_ContentRead env random selectedFiles [] s
                  (Forall_nil_2 _)) as Hnew.
    pose proof (intakeLoop_frame env random selectedFiles [] s)
      as (Hfiles & _).
    destruct (intakeLoop env random selectedFiles [] s) as [newFiles s'].
    simpl in *. rewrite Hfiles. apply Forall_app. done.
  - rewrite removeFile_files.
    apply Forall_forall. intros f [_ Hf]%list_elem_of_filter.
    by apply (proj1 (Forall_forall _ _) IH).
  - constructor.
  - by rewrite analyzeFiles_files.
  - exact IH.
  - exact IH.
Qed.



(** C2, as the code has it. In every state the application reaches, no
    tracked file has both content fields populated. A file that the
    classification takes for Word or plain text has its text set and the
    payload empty, so exactly one field is populated. Any other file has no
    text and the payload that the encoding gave, so exactly one field is
    populated precisely when that payload is a non-empty string. *)
Theorem content_fields (env : Env) (s : State) (f : AppFile) :
  Reachable env s → f ∈ files s →
  ¬ (textSet f ∧ payloadSet f) ∧
  (isWord (file f) || isPlainText (file f) = true →
   textSet f ∧ base64 f = Some "" ∧ exactlyOnePopulated f) ∧
  (isWord (file f) || isPlainText (file f) = false →
   extractedText f = None ∧
   fileToBase64 env (file f) = Resolved (base64 f) ∧
   (exactlyOnePopulated f ↔ payloadSet f)).
Proof.
  intros Hreach Hin.
  pose proof (proj1 (Forall_forall _ _) (Reachable_ContentRead env s Hreach)
                f Hin) as Hread.
  unfold ContentRead, readContent in Hread.
  unfold exactlyOnePopulated, textSet, payloadSet.
  destruct (isWord (file f)); simpl.
  - destruct (extractDocxText env (file f)) as [text|err]; [|done].
    injection Hread as <- <-. simpl.
    split; [by intros [_ ?]|]. split; [|done]. intros _.
    split; [done|]. split; [done|]. left. split; [done | by intros ?].
  - destruct (isPlainText (file f)); simpl.
    + destruct (fileToText env (file f)) as [text|err]; [|done].
      injection Hread as <- <-. simpl.
      split; [by intros [_ ?]|]. split; [|done]. intros _.
      split; [done|]. split; [done|]. left. split; [done | by intros ?].
    + destruct (fileToBase64 env (file f)) as [data|err]; [|done].
      injection Hread as <- <-.
      split; [by intros [? _]|]. split; [done|]. intros _.
      split; [done|]. split; [done|]. split.
      * intros [[? _]|[? _]]; done.
      * intros ?. right. split; [done | by intros ?].
Qed.

Lemma content_fields_photo :
  exactlyOnePopulated
    {| file := Samples.photo; base64 := Some "TWFu"; extractedText := None;
       id := "k3x9q" |}.
Proof.
  apply (content_fields Browser.env
           (Samples.upload [Samples.photo] initialState)).
  - apply reach_handleFileChange, reach_initial.
  - apply list_elem_of_here.
  - reflexivity.
  - reflexivity.
Defined.

(** C2, as the claim states it, fails on an empty image: the intake admits it
    with no text and with the empty payload, so neither field is populated. *)
Lemma empty_payload_not_populated :
  ∃ f, files (Samples.upload [Samples.emptyPhoto] initialState) = [f] ∧
       extractedText f = None ∧ base64 f = Some "" ∧
       ¬ exactlyOnePopulated f.
Proof.
  eexists. split; [reflexivity|]. split; [reflexivity|]. split; [reflexivity|].
  unfold exactlyOnePopulated, textSet, payloadSet. simpl.
  intros [[Htext _]|[Hpayload _]]; [by apply Htext | discriminate].
Qed.

(** ** The intake on sample uploads *)

Lemma handleFileChange_over_capacity_nine :
  files (Samples.upload [Samples.notes; Samples.photo] Samples.nine)
    = files Samples.nine ∧
  error (Samples.upload [Samples.notes; Samples.photo] Samples.nine)
    = Some capacityMessage.
Proof.
  apply (handleFileChange_over_capacity Browser.env
           (Samples.random Samples.nine)
           [Samples.notes; Samples.photo] Samples.nine).
  vm_compute. lia.
Defined.

Lemma handleFileChange_clears_error_broken :
  error (Samples.upload [Samples.broken; Samples.notes] initialState) = None ∧
  (Exists (unreadable Browser.env) [Samples.broken; Samples.notes] →
   is_Some (error (intakeLoop Browser.env (Samples.random initialState)
                     [Samples.broken; Samples.notes] [] initialState).2)).
Proof.
  apply (handleFileChange_clears_error Browser.env
           (Samples.random initialState)
           [Samples.broken; Samples.notes] initialState).
  vm_compute. lia.
Defined.

(** The extension decides before the declared type: in the sample browser
    the Word route fails on [report], where the text route would succeed. *)
Lemma handleFileChange_single_report :
  files (Samples.upload [Samples.report] initialState) = [].
Proof.
  unfold Samples.upload.
  rewrite (handleFileChange_single Browser.env
             (Samples.random initialState) Samples.report initialState)
    by (vm_compute; lia).
  reflexivity.
Qed.

Lemma removeFile_absent_nine :
  removeFile "zzzzz" Samples.nine = Samples.nine.
Proof.
  apply (removeFile_idempotent "zzzzz" Samples.nine).
  vm_compute. intros Hin.
  repeat (apply elem_of_cons in Hin as [Heq|Hin]; [discriminate Heq|]).
  by apply elem_of_nil in Hin.
Defined.

(** C4. A Word document that cannot be read, uploaded together with a text
    file: the document is left out and the text file is admitted, the loop
    sets the per-file message, and the call ends with the error cleared, so
    the failure is not what the user is left with. *)
Theorem handleFileChange_drops_file_error :
  let selectedFiles := [Samples.broken; Samples.notes] in
  let s := Samples.upload selectedFiles initialState in
  file <$> files s = [Samples.notes] ∧
  error (intakeLoop Browser.env (Samples.random initialState)
           selectedFiles [] initialState).2
    = Some "Ошибка при обработке файла broken.docx: Не удалось прочитать содержимое Word документа." ∧
  error s = None.
Proof. repeat split. Qed.

(** ** The request parts *)

Lemma pushFile_filePart (parts : list Part) (f : AppFile) :
  pushFile parts f = parts ++ option_list (filePart f).
Proof.
  unfold pushFile, filePart.
  destruct (truthy (extractedText f)); [done|].
  destruct (truthy (base64 f)); [done|]. simpl. by rewrite app_nil_r.
Qed.

Lemma forEach_pushFile (fs : list AppFile) (parts : list Part) :
  foldl pushFile parts fs = parts ++ omap filePart fs.
Proof.
  revert parts. induction fs as [|f fs IH]; intros parts; simpl.
  - by rewrite app_nil_r.
  - rewrite IH, pushFile_filePart, <- app_assoc. f_equal.
    by destruct (filePart f).
Qed.

Lemma omap_cons_list {A B} (g : A → option B) (x : A) (l : list A) :
  omap g (x :: l) = option_list (g x) ++ omap g l.
Proof. simpl. by destruct (g x). Qed.

Lemma length_omap_filePart (fs : list AppFile) :
  length (omap filePart fs) = length (filter hasContent fs).
Proof.
  induction fs as [|f fs IH]; [done|].
  rewrite omap_cons_list, filter_cons, length_app, IH.
  destruct (decide (hasContent f)) as [[p Hpart]|Hnone].
  - by rewrite Hpart.
  - destruct (filePart f) as [p|] eqn:Hpart; [|done].
    exfalso. apply Hnone. unfold hasContent. rewrite Hpart. eauto.
Qed.

(** A tracked file has content when its text, or else its payload, is a
    non-empty string. *)
Lemma hasContent_truthy (f : AppFile) :
  hasContent f ↔ truthy (extractedText f) = true ∨ truthy (base64 f) = true.
Proof.
  unfold hasContent, filePart.
  destruct (truthy (extractedText f)); [split; eauto|].
  destruct (truthy (base64 f)); [split; eauto|].
  split; [by intros [? ?] | by intros [?|?]].
Qed.

Lemma promptParts_omap (fs : list AppFile) :
  promptParts fs = omap filePart fs ++ [TextPart instruction].
Proof. unfold promptParts. by rewrite forEach_pushFile. Qed.

(** C3, as the code has it. The parts are the parts of the tracked files
    that have content (a non-empty text, else a non-empty payload), in batch
    order, followed by the instruction as the last part; their number is one
    more than the number of such files. *)
Theorem promptParts_shape (fs : list AppFile) :
  promptParts fs = omap filePart fs ++ [TextPart instruction] ∧
  last (promptParts fs) = Some (TextPart instruction) ∧
  length (promptParts fs) = length (filter hasContent fs) + 1.
Proof.
  rewrite promptParts_omap. split; [done|]. split.
  - apply last_snoc.
  - by rewrite length_app, length_omap_filePart.
Qed.

(** When every tracked file has content there is one part per file. *)
Lemma promptParts_full (fs : list AppFile) :
  Forall hasContent fs → length (promptParts fs) = length fs + 1.
Proof.
  intros Hall.
  rewrite promptParts_omap, length_app, length_omap_filePart.
  f_equal. induction Hall as [|f fs Hf _ IH]; [done|].
  rewrite filter_cons_True by done. simpl. by rewrite IH.
Qed.

(** C3, as the claim states it, fails on a batch that holds an empty text
    file: the file contributes no part, and the request has the instruction
    alone. *)
Lemma promptParts_skips_empty_file :
  let s := Samples.upload [Samples.emptyNotes] initialState in
  length (files s) = 1 ∧
  promptParts (files s) = [TextPart instruction] ∧
  length (promptParts (files s)) ≠ length (files s) + 1.
Proof. split; [reflexivity|]. split; [reflexivity|]. simpl. lia. Qed.

(** ** Analysis runs *)

Section Analysis.
Context (service : Service).
Implicit Types (s : State) (received : list Chunk).

Lemma analyzeFiles_runs s :
  files s ≠ [] →
  analyzeFiles service s =
    setIsAnalyzing false
      match service (promptParts (files s)) with
      | Rejected err => analysisFailed err (analysisStarted s)
      | Resolved responseStream =>
          let s' := foldl appendChunk (analysisStarted s)
                      (chunks responseStream) in
          match ending responseStream with
          | Completed => s'
          | Threw err => analysisFailed err s'
          end
      end.
Proof.
  intros Hfiles. unfold analyzeFiles.
  destruct (files s) as [|f fs]; [done|]. reflexivity.
Qed.

Lemma received_so_far s received :
  result (foldl appendChunk (analysisStarted s) received)
    = concatFragments received.
Proof. by rewrite (proj2 (proj2 (proj2 (appendChunks_frame _ _)))). Qed.

(** C7. A run whose stream completes ends with the result equal to the
    concatenation, in arrival order, of the text of the chunks the stream
    yielded; the run starts from the empty result, and after each chunk
    the result is the concatenation of those received so far. *)
Theorem analyzeFiles_success s received :
  files s ≠ [] →
  service (promptParts (files s))
    = Resolved {| chunks := received; ending := Completed |} →
  result (analyzeFiles service s) = concatFragments received ∧
  isAnalyzing (analyzeFiles service s) = false ∧
  error (analyzeFiles service s) = None ∧
  result (analysisStarted s) = "" ∧
  ∀ n, result (foldl appendChunk (analysisStarted s) (take n received))
         = concatFragments (take n received).
Proof.
  intros Hfiles Hstream.
  rewrite analyzeFiles_runs, Hstream by done. simpl.
  split; [apply received_so_far|]. split; [done|]. split.
  - by rewrite (proj1 (proj2 (proj2 (appendChunks_frame _ _)))).
  - split; [done|]. intros n. apply received_so_far.
Qed.

(** C6. A run that fails, at the call that opens the stream or while the
    stream is read, ends with the analyzing flag off, with the error set
    to the message of what was thrown (the generic message when there is
    none, or an empty one), and with the result holding the text of every
    chunk received before the failure. *)
Theorem analyzeFiles_failure s err received :
  files s ≠ [] →
  (service (promptParts (files s)) = Rejected err ∧ received = []) ∨
  service (promptParts (files s))
    = Resolved {| chunks := received; ending := Threw err |} →
  isAnalyzing (analyzeFiles service s) = false ∧
  error (analyzeFiles service s)
    = Some match message err with
           | Some m => if decide (m = "") then fallbackMessage else m
           | None => fallbackMessage
           end ∧
  result (analyzeFiles service s) = concatFragments received.
Proof.
  intros Hfiles Hfail. rewrite analyzeFiles_runs by done.
  assert (∀ s', error (analysisFailed err s')
            = Some match message err with
                   | Some m => if decide (m = "") then fallbackMessage else m
                   | None => fallbackMessage
                   end) as Herror.
  { intros s'. unfold analysisFailed. simpl.
    destruct (message err) as [m|]; simpl; [|done].
    destruct (String.eqb_spec m "") as [->|Hne]; simpl; [done|].
    by rewrite decide_False. }
  destruct Hfail as [[-> ->]| ->].
  - split; [done|]. split; [|done].
    exact (Herror (analysisStarted s)).
  - split; [done|]. split; [|apply received_so_far].
    exact (Herror (foldl appendChunk (analysisStarted s) received)).
Qed.

End Analysis.

Lemma analyzeFiles_success_ready :
  result (analyzeFiles Runs.completes Runs.ready) = "Файл 1: вывод.".
Proof.
  apply (analyzeFiles_success Runs.completes Runs.ready Runs.fragments).
  - discriminate.
  - reflexivity.
Defined.

Lemma analyzeFiles_failure_ready :
  isAnalyzing (analyzeFiles Runs.breaks Runs.ready) = false ∧
  error (analyzeFiles Runs.breaks Runs.ready) = Some "Failed to fetch" ∧
  result (analyzeFiles Runs.breaks Runs.ready) = "Файл 1: вывод.".
Proof.
  apply (analyzeFiles_failure Runs.breaks Runs.ready
           {| message := Some "Failed to fetch" |} Runs.fragments).
  - discriminate.
  - right. reflexivity.
Defined.

(** * Further properties of the handlers *)

(** ** The batch after an intake *)

Section IntakeBatch.
Context (env : Env).
Implicit Types (random : nat → string) (s : State).

Lemma intakeLoop_isCopied random selectedFiles newFiles s :
  isCopied (intakeLoop env random selectedFiles newFiles s).2 = isCopied s.
Proof.
  revert newFiles s.
  induction selectedFiles as [|f rest IH]; intros newFiles s; simpl; [done|].
  destruct (readContent env f) as [[data text]|err]; by rewrite IH.
Qed.

Lemma intakeLoop_length random selectedFiles newFiles s :
  length (intakeLoop env random selectedFiles newFiles s).1
    = length newFiles
      + length (filter (fun f => ¬ unreadable env f) selectedFiles).
Proof.
  rewrite <- (length_fmap file), intakeLoop_admitted, length_app.
  by rewrite length_fmap.
Qed.

(** The identifiers pushed are the successive draws, one per admitted
    candidate. *)
Lemma intakeLoop_ids random selectedFiles newFiles s :
  id <$> (intakeLoop env random selectedFiles newFiles s).1
    = (id <$> newFiles)
      ++ (random <$> seq (length newFiles)
            (length (filter (fun f => ¬ unreadable env f) selectedFiles))).
Proof.
  revert newFiles s.
  induction selectedFiles as [|f rest IH]; intros newFiles s; simpl.
  - by rewrite app_nil_r.
  - rewrite filter_cons.
    destruct (readContent env f) as [[data text]|err] eqn:Hread.
    + rewrite decide_True by (intros [err Hrej]; congruence).
      rewrite IH, fmap_app, length_app, <- app_assoc. simpl.
      by rewrite Nat.add_1_r.
    + rewrite decide_False by (intros Hgood; apply Hgood; by exists err).
      apply IH.
Qed.

Lemma handleFileChange_files random selectedFiles s :
  length (files s) + length selectedFiles ≤ 10 →
  files (handleFileChange env random selectedFiles s)
    = files s ++ (intakeLoop env random selectedFiles [] s).1.
Proof.
  intros Hcap. rewrite handleFileChange_within by done. simpl.
  by rewrite (proj1 (intakeLoop_frame env random selectedFiles [] s)).
Qed.

Lemma handleFileChange_length random selectedFiles s :
  length (files s) ≤ 10 →
  length (files (handleFileChange env random selectedFiles s)) ≤ 10.
Proof.
  intros Hsize.
  destruct (decide (length (files s) + length selectedFiles ≤ 10))
    as [Hcap|Hover].
  - rewrite handleFileChange_files, length_app, intakeLoop_length by done.
    pose proof (length_filter (fun f => ¬ unreadable env f) selectedFiles).
    simpl. lia.
  - unfold handleFileChange.
    destruct (Nat.ltb_spec 10 (length (files s) + length selectedFiles));
      [done | lia].
Qed.

Lemma Reachable_length s :
  Reachable env s → length (files s) ≤ 10.
Proof.
  induction 1 as [|random selectedFiles s _ IH|i s _ IH|s _ _|service s _ IH
                  |s _ IH|s _ IH].
  - simpl. lia.
  - by apply handleFileChange_length.
  - rewrite removeFile_files.
    pose proof (length_filter (fun f => id f ≠ i) (files s)). lia.
  - simpl. lia.
  - by rewrite analyzeFiles_files.
  - exact IH.
  - exact IH.
Qed.

(** X2. A call within capacity keeps the tracked files it found, in place,
    and appends one record for each candidate that could be read, in
    submission order; the batch grows by the number of such candidates. *)
Theorem handleFileChange_appends random selectedFiles s :
  length (files s) + length selectedFiles ≤ 10 →
  ∃ newFiles,
    files (handleFileChange env random selectedFiles s)
      = files s ++ newFiles ∧
    file <$> newFiles
      = filter (fun f => ¬ unreadable env f) selectedFiles ∧
    length (files (handleFileChange env random selectedFiles s))
      = length (files s)
        + length (filter (fun f => ¬ unreadable env f) selectedFiles).
Proof.
  intros Hcap. exists (intakeLoop env random selectedFiles [] s).1.
  rewrite handleFileChange_files by done. split; [done|]. split.
  - by rewrite intakeLoop_admitted.
  - by rewrite length_app, intakeLoop_length.
Qed.

(** X3. The identifiers of the records a call appends are the successive
    random draws of that call, one per admitted candidate: a candidate that
    cannot be read consumes no draw. *)
Theorem handleFileChange_ids random selectedFiles s :
  length (files s) + length selectedFiles ≤ 10 →
  id <$> files (handleFileChange env random selectedFiles s)
    = (id <$> files s)
      ++ (random <$> seq 0
            (length (filter (fun f => ¬ unreadable env f) selectedFiles))).
Proof.
  intros Hcap.
  by rewrite handleFileChange_files, fmap_app, intakeLoop_ids by done.
Qed.

(** X4. Identifiers stay pairwise distinct across a call when the draws of
    the call are pairwise distinct and none of them is carried by a tracked
    file already; the handler itself makes no such check. *)
Theorem handleFileChange_NoDup random selectedFiles s :
  length (files s) + length selectedFiles ≤ 10 →
  NoDup (id <$> files s) →
  NoDup (random <$> seq 0 (length selectedFiles)) →
  (∀ k, k < length selectedFiles → random k ∉ id <$> files s) →
  NoDup (id <$> files (handleFileChange env random selectedFiles s)).
Proof.
  intros Hcap Hold Hdraws Hfresh.
  rewrite handleFileChange_files, fmap_app, intakeLoop_ids by done. simpl.
  pose proof (length_filter (fun f => ¬ unreadable env f) selectedFiles)
    as Hle.
  set (n := length (filter (fun f => ¬ unreadable env f) selectedFiles)) in *.
  apply NoDup_app. split; [done|]. split.
  - intros i Hi [k [-> Hk]]%list_elem_of_fmap.
    apply elem_of_seq in Hk. apply (Hfresh k); [lia | done].
  - replace (length selectedFiles) with (n + (length selectedFiles - n))
      in Hdraws by lia.
    rewrite seq_app, fmap_app in Hdraws.
    by apply NoDup_app in Hdraws as [? _].
Qed.

Lemma handleFileChange_cells random selectedFiles s :
  result (handleFileChange env random selectedFiles s) = result s ∧
  isAnalyzing (handleFileChange env random selectedFiles s) = isAnalyzing s ∧
  isCopied (handleFileChange env random selectedFiles s) = isCopied s.
Proof.
  unfold handleFileChange.
  destruct (10 <? length (files s) + length selectedFiles)%nat; [done|].
  pose proof (intakeLoop_frame env random selectedFiles [] s)
    as (_ & Han & Hres).
  pose proof (intakeLoop_isCopied random selectedFiles [] s) as Hcop.
  destruct (intakeLoop env random selectedFiles [] s) as [newFiles s'].
  done.
Qed.

(** X5. An intake, accepted or rejected, writes the batch and the error
    only: whatever the candidates and the environment, the result text, the
    analyzing flag and the copied flag are as before. *)
Theorem handleFileChange_frame random selectedFiles s :
  result (handleFileChange env random selectedFiles s) = result s ∧
  isAnalyzing (handleFileChange env random selectedFiles s) = isAnalyzing s ∧
  isCopied (handleFileChange env random selectedFiles s) = isCopied s.
Proof. apply handleFileChange_cells. Qed.

(** X6. An empty selection (the file dialog dismissed) passes the capacity
    check of any batch of at most ten files: it leaves the batch alone and
    clears the error that was showing. *)
Theorem handleFileChange_empty_selection random s :
  length (files s) ≤ 10 →
  handleFileChange env random [] s = setError None s.
Proof.
  intros Hsize. rewrite handleFileChange_within by (simpl; lia).
  destruct s as [fs an r e c]. unfold setError, setFiles. simpl.
  by rewrite app_nil_r.
Qed.

End IntakeBatch.

(** ** The readers *)

Section Readers.
Context (env : Env).

(** X7. [extractDocxText] resolves exactly when both the buffer read and
    [mammoth] resolve, with the text [mammoth] gave; whatever made it fail,
    it rejects with the one fixed message, so the cause is not reported. *)
Theorem extractDocxText_outcome (f : File) :
  (∀ text, extractDocxText env f = Resolved text ↔
           ∃ buf, arrayBuffer env f = Resolved buf ∧
                  extractRawText env buf = Resolved text) ∧
  (∀ err, extractDocxText env f = Rejected err → err = docxError).
Proof.
  unfold extractDocxText. split.
  - intros text. destruct (arrayBuffer env f) as [buf|e]; simpl.
    + destruct (extractRawText env buf) as [t|e] eqn:Hraw; simpl.
      * split; [intros [= ->]; eauto | intros (b & [= <-] & Ht); congruence].
      * split; [done | intros (b & [= <-] & Ht); congruence].
    + split; [done | intros (b & [=] & _)].
  - intros err. destruct (arrayBuffer env f) as [buf|e]; simpl.
    + destruct (extractRawText env buf) as [t|e]; simpl; [done|].
      by intros [= <-].
    + by intros [= <-].
Qed.

Lemma split_without (sep : ascii) (s : string) :
  contains sep s = false → split sep s = [s].
Proof.
  induction s as [|c s IH]; simpl; [done|].
  intros [Hc Hs]%orb_false_iff. rewrite Hc, (IH Hs). done.
Qed.

Lemma split_at_first (sep : ascii) (header rest : string) :
  contains sep header = false →
  split sep (header +:+ String sep rest) = header :: split sep rest.
Proof.
  induction header as [|c header IH]; simpl.
  - intros _. by rewrite Ascii.eqb_refl.
  - intros [Hc Hh]%orb_false_iff. by rewrite Hc, (IH Hh).
Qed.

(** X8. [fileToBase64] resolves with what stands between the first and the
    second comma of the data URL: the whole payload when the URL is a header
    without comma, a comma, and a payload without comma; [undefined] when
    the URL has no comma at all. A failed read is passed on as it is. *)
Theorem fileToBase64_payload (f : File) :
  (∀ header payload,
     readAsDataURL env f = Resolved (header +:+ "," +:+ payload) →
     contains ","%char header = false →
     contains ","%char payload = false →
     fileToBase64 env f = Resolved (Some payload)) ∧
  (∀ url,
     readAsDataURL env f = Resolved url →
     contains ","%char url = false →
     fileToBase64 env f = Resolved None) ∧
  (∀ err, readAsDataURL env f = Rejected err →
          fileToBase64 env f = Rejected err).
Proof.
  unfold fileToBase64. split; [|split].
  - intros header payload -> Hheader Hpayload. simpl.
    change ("," +:+ payload) with (String ","%char payload).
    by rewrite split_at_first, split_without.
  - intros url -> Hurl. simpl. by rewrite split_without.
  - by intros err ->.
Qed.

End Readers.

Lemma fileToBase64_payload_photo :
  fileToBase64 Browser.env Samples.photo = Resolved (Some "TWFu").
Proof.
  apply (proj1 (fileToBase64_payload Browser.env Samples.photo)
           "data:image/png;base64" "TWFu"); reflexivity.
Defined.

(** ** Removing and clearing *)

Section Removal.
Implicit Types (i j : string) (s : State).

Lemma filter_id_NoDup i (fs : list AppFile) :
  NoDup (id <$> fs) → i ∈ id <$> fs →
  length (filter (fun f => id f ≠ i) fs) + 1 = length fs.
Proof.
  induction fs as [|f fs IH]; simpl.
  - intros _ Hin. by apply elem_of_nil in Hin.
  - intros [Hhead Htail]%NoDup_cons Hin. rewrite filter_cons.
    destruct (decide (id f ≠ i)) as [Hne|Heq]; simpl.
    + apply elem_of_cons in Hin as [Hin|Hin]; [congruence|].
      by rewrite IH.
    + apply dec_stable in Heq. subst i.
      rewrite filter_absent by done. lia.
Qed.

(** X9. When the identifiers of the batch are pairwise distinct,
    [removeFile] with an identifier of the batch takes out exactly one
    tracked file; the identifier is gone from the batch and the others stay
    distinct. *)
Theorem removeFile_one i s :
  NoDup (id <$> files s) → i ∈ (id <$> files s) →
  length (files (removeFile i s)) + 1 = length (files s) ∧
  (i ∉ (id <$> files (removeFile i s))) ∧
  NoDup (id <$> files (removeFile i s)).
Proof.
  intros Hnodup Hin. rewrite removeFile_files. split; [|split].
  - by apply filter_id_NoDup.
  - intros (f & -> & [Hne _]%list_elem_of_filter)%list_elem_of_fmap. done.
  - apply (sublist_NoDup _ (id <$> files s)); [done|].
    apply fmap_sublist, sublist_filter.
Qed.

(** X10. Two removals commute. *)
Theorem removeFile_comm i j s :
  removeFile i (removeFile j s) = removeFile j (removeFile i s).
Proof.
  unfold removeFile, setFiles. simpl. f_equal.
  rewrite !list_filter_filter. apply list_filter_iff. tauto.
Qed.

End Removal.

Section Clearing.
Context (env : Env).
Implicit Types (s : State).

(** X11. [clearAll] absorbs what came before it: after an intake or a
    removal it gives the state it would have given without them, and a
    second [clearAll] changes nothing. *)
Theorem clearAll_absorbs random selectedFiles i s :
  clearAll (handleFileChange env random selectedFiles s) = clearAll s ∧
  clearAll (removeFile i s) = clearAll s ∧
  clearAll (clearAll s) = clearAll s.
Proof.
  split; [|done].
  destruct (handleFileChange_cells env random selectedFiles s)
    as (Hres & Han & Hcop).
  unfold clearAll, setError, setResult, setFiles. simpl.
  by rewrite Han, Hcop.
Qed.

(** X12. [analyzeFiles] on an empty batch does nothing at all: no cell is
    written, so a stale result or error stays. In particular it does
    nothing right after [clearAll]. *)
Theorem analyzeFiles_empty (service : Service) s :
  analyzeFiles service (clearAll s) = clearAll s ∧
  (files s = [] → analyzeFiles service s = s).
Proof.
  split; [done|]. intros Hempty. unfold analyzeFiles. by rewrite Hempty.
Qed.

End Clearing.

Lemma analyzeFiles_empty_initial :
  analyzeFiles Runs.completes initialState = initialState.
Proof.
  apply (proj2 (analyzeFiles_empty Runs.completes initialState)).
  reflexivity.
Defined.

(** ** More on analysis runs *)

Section Streams.
Context (service : Service).
Implicit Types (s : State) (cs : list Chunk).

(** X13. A run on a non-empty batch starts afresh: the state it ends in
    does not depend on the result text or the error that were there
    before. *)
Theorem analyzeFiles_fresh s (update : string → string) (e : option string) :
  files s ≠ [] →
  analyzeFiles service (setError e (setResult update s))
    = analyzeFiles service s.
Proof.
  intros Hfiles. by rewrite !analyzeFiles_runs by done.
Qed.

Lemma analyzeFiles_cells s :
  files (analyzeFiles service s) = files s ∧
  isCopied (analyzeFiles service s) = isCopied s ∧
  (isAnalyzing s = false → isAnalyzing (analyzeFiles service s) = false).
Proof.
  split; [apply analyzeFiles_files|].
  unfold analyzeFiles. destruct (length (files s) =? 0)%nat; [done|].
  split; [|done]. simpl.
  assert (∀ cs s', isCopied (foldl appendChunk s' cs) = isCopied s') as Hcop.
  { intros cs. induction cs as [|c cs IH]; intros s'; simpl; [done|].
    rewrite IH. unfold appendChunk. by destruct (truthy (chunkText c)). }
  destruct (service _) as [[cs e]|err]; simpl; [|done].
  destruct e; simpl; by rewrite Hcop.
Qed.

(** X14. Whatever the service answers (a rejection, a stream that
    completes, a stream that throws), [analyzeFiles] leaves the batch and
    the copied flag as they were. *)
Theorem analyzeFiles_frame s :
  files (analyzeFiles service s) = files s ∧
  isCopied (analyzeFiles service s) = isCopied s.
Proof. split; apply analyzeFiles_cells. Qed.

(** X15. The result only grows while a stream is read: after more chunks
    it is what it was followed by the text of those chunks; a chunk without
    text, or with the empty text, leaves the state as it is. *)
Theorem appendChunk_grows s cs1 cs2 :
  result (foldl appendChunk s (cs1 ++ cs2))
    = result (foldl appendChunk s cs1) +:+ concatFragments cs2 ∧
  ∀ c, fragmentText c = "" → appendChunk s c = s.
Proof.
  split.
  - rewrite foldl_app.
    by rewrite (proj2 (proj2 (proj2 (appendChunks_frame cs2 _)))).
  - intros c. unfold fragmentText, appendChunk.
    destruct (chunkText c) as [text|]; simpl; [|done]. by intros ->.
Qed.

End Streams.

Lemma analyzeFiles_fresh_ready :
  analyzeFiles Runs.completes
    (setError (Some "stale") (setResult (fun _ => "old text") Runs.ready))
  = analyzeFiles Runs.completes Runs.ready.
Proof.
  apply (analyzeFiles_fresh Runs.completes Runs.ready).
  discriminate.
Defined.

Lemma appendChunk_grows_silent :
  appendChunk Runs.ready {| chunkText := None |} = Runs.ready.
Proof.
  apply (proj2 (appendChunk_grows Runs.ready [] [])). reflexivity.
Defined.

(** ** The request and the view in reachable states *)

Section Requests.
Context (env : Env).
Implicit Types (s : State) (f : AppFile).

(** X16. The parts of a batch put together from two batches are the file
    parts of the first followed by the parts of the second; a request has at
    least the instruction and at most one part more than the batch has
    files. *)
Theorem promptParts_app (fs1 fs2 : list AppFile) :
  promptParts (fs1 ++ fs2) = omap filePart fs1 ++ promptParts fs2 ∧
  1 ≤ length (promptParts fs1) ≤ length fs1 + 1.
Proof.
  rewrite !promptParts_omap, omap_app, <- app_assoc. split; [done|].
  rewrite length_app, length_omap_filePart. simpl.
  pose proof (length_filter hasContent fs1). lia.
Qed.

(** X1. With handlers run one after the other, the batch never holds more
    than ten tracked files, and so no request has more than eleven parts. *)
Theorem Reachable_capacity s :
  Reachable env s →
  length (files s) ≤ 10 ∧ length (promptParts (files s)) ≤ 11.
Proof.
  intros Hreach. pose proof (Reachable_length env s Hreach) as Hlen.
  split; [done|].
  rewrite promptParts_omap, length_app, length_omap_filePart. simpl.
  pose proof (length_filter hasContent (files s)). lia.
Qed.

(** X17. Between two handler runs the analyzing flag is off: every run of
    [analyzeFiles] that starts also reaches its [finally], and no other
    handler sets the flag. *)
Theorem Reachable_not_analyzing s :
  Reachable env s → isAnalyzing s = false.
Proof.
  induction 1 as [|random selectedFiles s _ IH|i s _ IH|s _ IH|service s _ IH
                  |s _ IH|s _ IH]; try done.
  - by rewrite (proj1 (proj2 (handleFileChange_cells env random
                                 selectedFiles s))).
  - by apply analyzeFiles_cells.
Qed.

(** X18. In a reachable state the kind of part follows the classification
    of the file: a file taken for Word or plain text is sent as labelled
    text, or not at all when its text is empty; any other file is sent as
    inline data under its declared type (the generic binary type when it
    declares none), or not at all when its payload is empty or missing. *)
Theorem Reachable_parts s f :
  Reachable env s → f ∈ files s →
  if isWord (file f) || isPlainText (file f) then
    (extractedText f = Some "" ∧ filePart f = None) ∨
    ∃ text, extractedText f = Some text ∧ text ≠ "" ∧
      filePart f =
        Some (TextPart ("Содержимое файла " +:+ name (file f) +:+ ":" +:+
                        String "010"%char text))
  else
    (truthy (base64 f) = false ∧ filePart f = None) ∨
    ∃ data, base64 f = Some data ∧ data ≠ "" ∧
      filePart f =
        Some (InlineDataPart
                (if String.eqb (type (file f)) "" then
                   "application/octet-stream"
                 else type (file f))
                data).
Proof.
  intros Hreach Hin.
  pose proof (proj1 (Forall_forall _ _) (Reachable_ContentRead env s Hreach)
                f Hin) as Hread.
  unfold ContentRead, readContent in Hread. unfold filePart.
  assert (∀ text : string,
            truthy (Some text) = false → text = "") as Hempty.
  { intros text. simpl. by destruct (String.eqb_spec text ""). }
  assert (∀ text : string,
            truthy (Some text) = true → text ≠ "") as Hfull.
  { intros text. simpl. by destruct (String.eqb_spec text ""). }
  destruct (isWord (file f)); simpl.
  - destruct (extractDocxText env (file f)) as [text|err]; [|done].
    injection Hread as <- <-.
    destruct (truthy (Some text)) eqn:Htext.
    + right. exists text. auto.
    + left. rewrite (Hempty _ Htext). done.
  - destruct (isPlainText (file f)); simpl.
    + destruct (fileToText env (file f)) as [text|err]; [|done].
      injection Hread as <- <-.
      destruct (truthy (Some text)) eqn:Htext.
      * right. exists text. auto.
      * left. rewrite (Hempty _ Htext). done.
    + destruct (fileToBase64 env (file f)) as [data|err]; [|done].
      injection Hread as <- <-. simpl.
      destruct data as [data|]; [|by left].
      destruct (truthy (Some data)) eqn:Hdata; [|by left].
      right. exists data. auto.
Qed.

(** X19. In a reachable state a file taken for Word or plain text never
    gets an image thumbnail, whatever type it declares: its payload is
    empty, so the view draws the icon. *)
Theorem thumbnail_text_file s f :
  Reachable env s → f ∈ files s →
  isWord (file f) || isPlainText (file f) = true →
  thumbnail f = None.
Proof.
  intros Hreach Hin Hclass.
  pose proof (proj1 (Forall_forall _ _) (Reachable_ContentRead env s Hreach)
                f Hin) as Hread.
  unfold ContentRead, readContent in Hread. unfold thumbnail.
  destruct (isWord (file f)); simpl in Hclass.
  - destruct (extractDocxText env (file f)) as [text|err]; [|done].
    injection Hread as Hdata _. rewrite <- Hdata. simpl.
    by rewrite andb_false_r.
  - rewrite Hclass in Hread.
    destruct (fileToText env (file f)) as [text|err]; [|done].
    injection Hread as Hdata _. rewrite <- Hdata. simpl.
    by rewrite andb_false_r.
Qed.

End Requests.

Section Thumbnails.
Context (env : Env).

Lemma contains_append (c : ascii) (a b : string) :
  contains c (a +:+ b) = contains c a || contains c b.
Proof.
  induction a as [|x a IH]; [done|].
  rewrite append_cons. simpl. by rewrite IH, orb_assoc.
Qed.

Lemma fileToBase64_data_url (f : File) (payload : string) :
  contains ","%char (type f) = false →
  contains ","%char payload = false →
  readAsDataURL env f
    = Resolved ("data:" +:+ type f +:+ ";base64," +:+ payload) →
  fileToBase64 env f = Resolved (Some payload).
Proof.
  intros Htype Hpayload Hurl.
  assert ("data:" +:+ type f +:+ ";base64," +:+ payload
          = ("data:" +:+ type f +:+ ";base64") +:+ String ","%char payload)
    as Hsplit by (by rewrite !append_assoc).
  unfold fileToBase64. rewrite Hurl, Hsplit.
  unfold mbind, Outcome_bind, mret, Outcome_ret.
  rewrite split_at_first, split_without; [done|done|].
  by rewrite !contains_append, Htype.
Qed.

(** X20. An image that goes the base64 route gets back, as the [src] of
    its thumbnail, the very data URL the reader produced for it, when that
    URL is [data:<type>;base64,<payload>] with a non-empty payload and no
    comma in the type or the payload. *)
Theorem thumbnail_round_trip (random : nat → string) (s : State) (f : File)
    (payload : string) :
  length (files s) + 1 ≤ 10 →
  isWord f || isPlainText f = false →
  String.prefix "image/" (type f) = true →
  contains ","%char (type f) = false →
  contains ","%char payload = false →
  payload ≠ "" →
  readAsDataURL env f
    = Resolved ("data:" +:+ type f +:+ ";base64," +:+ payload) →
  thumbnail <$> files (handleFileChange env random [f] s)
    = (thumbnail <$> files s)
      ++ [Some ("data:" +:+ type f +:+ ";base64," +:+ payload)].
Proof.
  intros Hcap Hclass Himage Htype Hpayload Hne Hurl.
  apply orb_false_iff in Hclass as [Hword Hplain].
  rewrite handleFileChange_files by (simpl; lia).
  rewrite fmap_app. f_equal. simpl. unfold readContent.
  rewrite Hword, Hplain, (fileToBase64_data_url f payload) by done.
  simpl. unfold thumbnail. simpl. rewrite Himage.
  by destruct (String.eqb_spec payload "").
Qed.

End Thumbnails.

(** ** The further properties on sample inputs *)

Lemma Reachable_capacity_nine :
  length (files Samples.nine) ≤ 10 ∧
  length (promptParts (files Samples.nine)) ≤ 11.
Proof.
  apply (Reachable_capacity Browser.env Samples.nine).
  repeat apply reach_handleFileChange. apply reach_initial.
Defined.

Lemma handleFileChange_appends_mixed :
  ∃ newFiles,
    files (Samples.upload Uploads.mixed initialState) = [] ++ newFiles ∧
    file <$> newFiles
      = filter (fun f => ¬ unreadable Browser.env f) Uploads.mixed ∧
    length (files (Samples.upload Uploads.mixed initialState))
      = 0 + length (filter (fun f => ¬ unreadable Browser.env f)
                      Uploads.mixed).
Proof.
  apply (handleFileChange_appends Browser.env (Samples.random initialState)
           Uploads.mixed initialState).
  vm_compute. lia.
Defined.

Lemma handleFileChange_ids_mixed :
  id <$> files (Samples.upload Uploads.mixed initialState)
    = ["k3x9q"; "p0v7m"].
Proof.
  unfold Samples.upload.
  rewrite (handleFileChange_ids Browser.env (Samples.random initialState)
             Uploads.mixed initialState) by (vm_compute; lia).
  reflexivity.
Defined.

Lemma handleFileChange_empty_selection_nine :
  handleFileChange Browser.env Browser.random [] Samples.nine
    = setError None Samples.nine.
Proof.
  apply (handleFileChange_empty_selection Browser.env Browser.random
           Samples.nine).
  vm_compute. lia.
Defined.

Lemma extractDocxText_outcome_broken :
  Browser.notZip ≠ docxError ∧
  ∀ err, extractDocxText Browser.env Samples.broken = Rejected err →
         err = docxError.
Proof.
  split; [discriminate|].
  apply (proj2 (extractDocxText_outcome Browser.env Samples.broken)).
Defined.

Lemma Reachable_not_analyzing_nine : isAnalyzing Samples.nine = false.
Proof.
  apply (Reachable_not_analyzing Browser.env Samples.nine).
  repeat apply reach_handleFileChange. apply reach_initial.
Defined.

Lemma thumbnail_text_file_scan :
  ∃ f, files Uploads.scanned = [f] ∧ thumbnail f = None.
Proof.
  eexists. split; [reflexivity|].
  apply (thumbnail_text_file Browser.env Uploads.scanned).
  - apply reach_handleFileChange, reach_initial.
  - apply list_elem_of_here.
  - reflexivity.
Defined.

Lemma thumbnail_round_trip_photo :
  thumbnail <$> files (Samples.upload [Samples.photo] initialState)
    = [Some "data:image/png;base64,TWFu"].
Proof.
  apply (thumbnail_round_trip Browser.env (Samples.random initialState)
           initialState Samples.photo "TWFu");
    try reflexivity.
  - vm_compute. lia.
  - discriminate.
Defined.

Lemma handleFileChange_NoDup_mixed :
  NoDup (id <$> files (Samples.upload Uploads.mixed initialState)).
Proof.
  apply (handleFileChange_NoDup Browser.env (Samples.random initialState)
           Uploads.mixed initialState).
  - vm_compute. lia.
  - apply NoDup_nil_2.
  - vm_compute.
    repeat (apply NoDup_cons_2;
            [rewrite ?elem_of_cons, elem_of_nil; intuition discriminate|]).
    apply NoDup_nil_2.
  - intros k _. apply not_elem_of_nil.
Defined.

Lemma removeFile_one_nine :
  length (files (removeFile "p0v7m" Samples.nine)) + 1
    = length (files Samples.nine) ∧
  ("p0v7m" ∉ (id <$> files (removeFile "p0v7m" Samples.nine))) ∧
  NoDup (id <$> files (removeFile "p0v7m" Samples.nine)).
Proof.
  apply (removeFile_one "p0v7m" Samples.nine).
  - vm_compute.
    repeat (apply NoDup_cons_2;
            [rewrite ?elem_of_cons, elem_of_nil; intuition discriminate|]).
    apply NoDup_nil_2.
  - vm_compute. apply list_elem_of_further, list_elem_of_here.
Defined.

Lemma Reachable_parts_photo :
  ∃ f, files (Samples.upload [Samples.photo] initialState) = [f] ∧
       filePart f = Some (InlineDataPart "image/png" "TWFu").
Proof.
  eexists. split; [reflexivity|].
  destruct (Reachable_parts Browser.env
              (Samples.upload [Samples.photo] initialState)
              {| file := Samples.photo; base64 := Some "TWFu";
                 extractedText := None; id := "k3x9q" |})
    as [[Hnone _]|(data & _ & _ & Hpart)].
  - apply reach_handleFileChange, reach_initial.
  - apply list_elem_of_here.
  - discriminate Hnone.
  - reflexivity.
Defined.
